(** * fades: the command line and the execution supervisor ([fades/main.py])

    A shallow embedding of [_parse_argv] and [go] and the properties of
    them that the specification states.

    Conventions.
    - A Python [str] is a [string]; its characters are the code points
      below 256.
    - A Python exception is a value of [exn]; code that can raise returns
      a [result].
    - [go] is effectful: it runs in the monad [M], a state monad over
      [state] with the failures of [result].  Everything [go] does to the
      outside (printing, logging, calls into the other modules of fades,
      process creation, signals sent) is appended to a trace of [event]s,
      and what the outside answers is read from a [world].
    - The modules [parsing], [cache], [helpers] and [envbuilder] and
      [subprocess.Popen] are known by their calls only: each call is
      recorded and may return or raise, as the [world] says.  Printing,
      logging, [signal.signal], building the [VEnvsCache] object and
      [os.kill] on the running child are taken not to raise.
    - In [go] signals reach the supervisor while it is blocked in
      [p.wait()]; [go_with_arrivals] also has the signals that arrive
      between the launch of the child and the wait. *)

From Stdlib Require Import ZArith NArith Ascii String.
From stdpp Require Import base option list strings countable finite gmap.

Local Open Scope Z_scope.

(** ** Signals *)

(** The members of [signal.Signals] this development speaks about: the six
    that [main.py] names and six more whose default disposition also ends
    the receiving process. *)
Inductive Signals : Set :=
| SIGHUP | SIGINT | SIGQUIT | SIGILL | SIGABRT | SIGFPE
| SIGKILL | SIGSEGV | SIGALRM | SIGTERM | SIGUSR1 | SIGUSR2.

#[global] Instance Signals_eq_dec : EqDecision Signals.
Proof. solve_decision. Defined.

#[global] Program Instance Signals_finite : Finite Signals :=
  {| enum := [SIGHUP; SIGINT; SIGQUIT; SIGILL; SIGABRT; SIGFPE;
              SIGKILL; SIGSEGV; SIGALRM; SIGTERM; SIGUSR1; SIGUSR2] |}.
Next Obligation. by apply (bool_decide_unpack _). Qed.
Next Obligation. intros []; by apply (bool_decide_unpack _). Qed.

(** ** Exceptions and results *)

Inductive exn : Set :=
| IndexError                      (* subscript out of range *)
| KeyError (k : string)           (* missing dict key *)
| SystemExit                      (* raised by [sys.exit()], no argument *)
| KeyboardInterrupt               (* the interpreter's own SIGINT handler *)
| External (what : string).       (* raised inside another module *)

#[global] Instance exn_eq_dec : EqDecision exn.
Proof. solve_decision. Defined.

(** How a computation ends: it returns a value, an exception leaves it, or
    the process is ended by a signal nobody handles. *)
Inductive result (A : Type) : Type :=
| Ok (a : A)
| Raise (e : exn)
| Killed (s : Signals).
Arguments Ok {A} a.
Arguments Raise {A} e.
Arguments Killed {A} s.

#[global] Instance result_ret : MRet result := @Ok.

#[global] Instance result_bind : MBind result := fun A B k r =>
  match r with
  | Ok a => k a
  | Raise e => Raise e
  | Killed s => Killed s
  end.

(** ** Strings *)

Module Str.

(** [str.isspace] on one character, for the code points below 256:
    TAB LF VT FF CR, FS GS RS US, SPACE, NEL and NBSP. *)
Definition isspace (c : ascii) : bool :=
  let n := N_of_ascii c in
  ((9 <=? n) && (n <=? 13) || (28 <=? n) && (n <=? 32)
   || (n =? 133) || (n =? 160))%N.

(** [s.split()] with no separator: the maximal runs of characters that
    are not whitespace, in order.  [word] is the run being read. *)
Fixpoint split_from (word : string) (s : string) : list string :=
  match s with
  | EmptyString =>
      match word with EmptyString => [] | _ => [word] end
  | String c s' =>
      if isspace c then
        match word with
        | EmptyString => split_from EmptyString s'
        | _ => word :: split_from EmptyString s'
        end
      else split_from (word +:+ String c EmptyString) s'
  end.

Definition split (s : string) : list string := split_from EmptyString s.

(** [s[0]]: raises IndexError on the empty string. *)
Definition getitem0 (s : string) : result ascii :=
  match s with
  | EmptyString => Raise IndexError
  | String c _ => Ok c
  end.

Definition startswith (c : ascii) (s : string) : bool :=
  match s with
  | String c' _ => bool_decide (c' = c)
  | EmptyString => false
  end.

Fixpoint endswith (c : ascii) (s : string) : bool :=
  match s with
  | EmptyString => false
  | String c' EmptyString => bool_decide (c' = c)
  | String _ s' => endswith c s'
  end.

(** [not s]: a string is false exactly when it is empty. *)
Definition is_empty (s : string) : bool :=
  match s with EmptyString => true | _ => false end.

End Str.

(** [os.path.join(a, b)] on POSIX, two components. *)
Definition os_path_join (a b : string) : string :=
  if Str.startswith "/" b then b
  else if Str.is_empty a || Str.endswith "/" a then a +:+ b
  else a +:+ "/" +:+ b.

(** ** [_parse_argv] *)

(** The [while] loop of [_parse_argv]: [argv] is what is left of the
    argument list, [fades_options] what has been collected.  Each turn pops
    the head of [argv], so the loop is a recursion on [argv].  The test
    [argv[0][0] == '-'] indexes the head without looking at its length. *)
Fixpoint _parse_argv_loop (argv fades_options : list string)
  : result (list string * list string) :=
  match argv with
  | [] => Ok (fades_options, argv)
  | a :: rest =>
      c ← Str.getitem0 a;
      if bool_decide (c = "-"%char)
      then _parse_argv_loop rest (fades_options ++ Str.split a)
      else Ok (fades_options, argv)
  end.

Definition _parse_argv (argv : list string)
  : result (list string * string * list string) :=
  let argv := drop 1 argv in
  '(fades_options, argv) ← _parse_argv_loop argv [];
  match argv with
  | [] => Ok (fades_options, EmptyString, [])
  | child_program :: _ => Ok (fades_options, child_program, drop 1 argv)
  end.

(** ** Module constants *)

(** the signals to redirect to the child process *)
Definition REDIRECTED_SIGNALS : list Signals :=
  [ SIGABRT;
    SIGFPE;
    SIGILL;
    SIGINT;
    SIGSEGV;
    SIGTERM ].

(** One double quote character, for the text below. *)
Definition dq : string := String (ascii_of_nat 34) EmptyString.

Definition USAGE : string :=
"
Usage:

        fades [<fades_options>] child_program [<child_program_options>]
        fades -i|--interactive [<fades_options>] requirements

    All fades options are optional:
        -h|--help:    show this help and quit
        -V|--version: show version and info about the system
        -v|--verbose: send all internal debugging lines to stderr, which
                      may be very useful if any problem arises.
        -q|--quiet:   don't show anything (unless it has a real problem),
                      so the original script stderr is not polluted at all.

    The " +:+ dq +:+ "child program" +:+ dq +:+ " is the script that fades will execute. It's a
    mandatory parameter, the first thing received by fades that is not
    a parameter.

    The child program options (everything after the child program) are
    parameters passed as is to the child program.

    If called with -i/--interactive, there is no child program, fades
    will open
    FIXME: terminar aca, hacer man y readme, pero con el nuevo formato
         - -d|--dependency
         - hacemos child program opcional
".

(** ** The outside of [go] *)

(** [logging.DEBUG], [logging.INFO], [logging.WARNING]. *)
Inductive level : Set := DEBUG | INFO | WARNING.

(** The arguments of a logging call, kept next to its format string as
    [logging] keeps them. *)
Inductive arg : Set :=
| AStr (s : string)
| AInt (n : Z)
| AList (l : list string)
| ASig (s : Signals).

(** What [subprocess.Popen] returns: the child, known by its process id. *)
Record process : Set := { pid : Z }.

(** The closure [_signal_handler] that [go] registers: it has captured the
    child [p] (and the logger, which is part of the state here). *)
Inductive handler : Set := SignalHandler (p : process).

Section Supervisor.

(** What [parsing] produces and what [envbuilder] reports as installed;
    both only pass through [go]. *)
Context {Deps Installed : Type}.

(** The environment description is a dict. *)
Abbreviation VenvData := (gmap string string).

(** Everything [go] does that can be seen from outside, in order. *)
Inductive event : Type :=
| Print (line : string)                              (* print(...) *)
| SetUp (lvl : level)                                (* logger.set_up *)
| Log (lvl : level) (msg : string) (args : list arg) (* l.debug, l.warning *)
| ParseString (s : string)                           (* parsing.parse_string *)
| ParseFile (path : string)                          (* parsing.parse_file *)
| GetBasedir                                         (* helpers.get_basedir *)
| GetVenv (index : string) (deps : Deps)             (* venvscache.get_venv *)
| CreateVenv (deps : Deps)                           (* envbuilder.create_venv *)
| Store (index : string) (installed : Installed) (venv_data : VenvData)
                                                     (* venvscache.store *)
| Popen (args : list string)                         (* subprocess.Popen *)
| Kill (pid : Z) (signum : Signals)                  (* os.kill *)
| Wait (pid : Z).                                    (* p.wait() returned *)

(** The state [go] works on: the signal handlers it has registered, and
    the trace of what it has done. *)
Record state : Type := {
  handlers : gmap Signals handler;
  trace : list event;
}.

Definition initial : state := {| handlers := ∅; trace := [] |}.

(** One invocation's surroundings: the interpreter's globals, what the
    other modules of fades answer, and what happens to the child. *)
Record world : Type := {
  sys_argv : list string;
  sys_version_info : string;
  sys_platform : string;
  parse_string : string -> result Deps;
  parse_file : string -> result Deps;
  get_basedir : result string;
  get_venv : string -> Deps -> result (option VenvData);
  create_venv : Deps -> result (VenvData * Installed);
  store : string -> Installed -> VenvData -> result unit;
  popen : list string -> result process;
  (** the signals that reach the supervisor while it waits, in order *)
  incoming : list Signals;
  (** the exit code of the child *)
  returncode : Z;
}.

(** *** The monad *)

Definition M (A : Type) : Type := state -> result A * state.

#[global] Instance M_ret : MRet M := fun A a st => (Ok a, st).

#[global] Instance M_bind : MBind M := fun A B k m st =>
  match m st with
  | (Ok a, st') => k a st'
  | (Raise e, st') => (Raise e, st')
  | (Killed s, st') => (Killed s, st')
  end.

Definition lift {A} (r : result A) : M A := fun st => (r, st).

Definition raise {A} (e : exn) : M A := lift (Raise e).

Definition emit (ev : event) : M unit :=
  fun st => (Ok tt, {| handlers := handlers st; trace := trace st ++ [ev] |}).

(** A call into another module: it is recorded, then it answers. *)
Definition call {A} (ev : event) (answer : result A) : M A :=
  emit ev;; lift answer.

(** *** Primitives *)

Definition print (line : string) : M unit := emit (Print line).

Definition sys_exit {A} : M A := raise SystemExit.

Definition debug (msg : string) (args : list arg) : M unit :=
  emit (Log DEBUG msg args).

Definition warning (msg : string) (args : list arg) : M unit :=
  emit (Log WARNING msg args).

(** [signal.signal(s, h)] *)
Definition signal_signal (s : Signals) (h : handler) : M unit :=
  fun st => (Ok tt, {| handlers := <[s := h]> (handlers st); trace := trace st |}).

(** [os.kill(pid, signum)] on the running child. *)
Definition os_kill (pid : Z) (signum : Signals) : M unit :=
  emit (Kill pid signum).

(** [d[k]] *)
Definition getitem (d : VenvData) (k : string) : M string :=
  match d !! k with
  | Some v => mret v
  | None => raise (KeyError k)
  end.

(** Membership in a list of strings, [x in l]. *)
Definition in_ (x : string) (l : list string) : bool := bool_decide (x ∈ l).

(** *** Signals reaching the supervisor *)

(** The nested function [_signal_handler] of [go], with the [p] it
    closes over as a parameter. *)
Definition _signal_handler (p : process) (signum : Signals) : M unit :=
  debug "Redirecting signal %s to child" [ASig signum];;
  os_kill (pid p) signum.

(** With no handler registered by the program the signal keeps the
    disposition it had: the interpreter raises KeyboardInterrupt for
    SIGINT, and the others end the process. *)
Definition default_disposition (s : Signals) : M unit :=
  match s with
  | SIGINT => raise KeyboardInterrupt
  | _ => lift (Killed s)
  end.

Definition deliver (s : Signals) : M unit :=
  fun st =>
    match handlers st !! s with
    | Some (SignalHandler p) => _signal_handler p s st
    | None => default_disposition s st
    end.

Fixpoint deliver_all (sigs : list Signals) : M unit :=
  match sigs with
  | [] => mret tt
  | s :: sigs => deliver s;; deliver_all sigs
  end.

(** [p.wait()]: the supervisor blocks; the signals of the [world] reach
    it one by one, then the child exits and its code is returned. *)
Definition wait (W : world) (p : process) : M Z :=
  deliver_all (incoming W);;
  emit (Wait (pid p));;
  mret (returncode W).

(** *** [go] *)

(** [for x in l: body(x)] *)
Fixpoint for_ {A} (l : list A) (body : A -> M unit) : M unit :=
  match l with
  | [] => mret tt
  | x :: l => body x;; for_ l body
  end.

Definition go (W : world) (version : string) (argv : list string) : M unit :=
  '(fades_options, child_program, child_options) ← lift (_parse_argv (sys_argv W));

  (* validate input, parameters, and support some special options *)
  (if in_ "-V" fades_options || in_ "--version" fades_options then
     print ("Running 'fades' version " +:+ version);;
     print ("    Python: " +:+ sys_version_info W);;
     print ("    System: " +:+ sys_platform W);;
     sys_exit
   else mret tt);;
  (if in_ "-h" fades_options || in_ "--help" fades_options then
     print USAGE;;
     sys_exit
   else mret tt);;

  let verbose := in_ "-v" fades_options || in_ "--verbose" fades_options in
  let quiet := in_ "-q" fades_options || in_ "--quiet" fades_options in
  let interactive := in_ "-i" fades_options || in_ "--interactive" fades_options in

  (if Str.is_empty child_program then
     (if interactive then
        print "ERROR: the 'child program' is mandatory (unless --interactive)."
      else
        print "ERROR: the 'child program' is mandatory (unless --interactive).");;
     print USAGE;;
     sys_exit
   else mret tt);;

  let log_level :=
    if verbose then DEBUG else if quiet then WARNING else INFO in

  (* set up logger and dump basic version info *)
  emit (SetUp log_level);;
  debug "Running Python %s on %r" [AStr (sys_version_info W); AStr (sys_platform W)];;
  debug "Starting fades v. %s" [AStr version];;

  (if verbose && quiet then
     warning "Overriding 'quiet' option ('verbose' also requested)" []
   else mret tt);;

  (* parse file and get deps *)
  requested_deps ←
    (if interactive then
       call (ParseString child_program) (parse_string W child_program)
     else
       call (ParseFile child_program) (parse_file W child_program));

  (* start the virtualenvs manager *)
  basedir ← call GetBasedir (get_basedir W);
  let venvscache := os_path_join basedir "venvs.idx" in
  venv_data ← call (GetVenv venvscache requested_deps)
                   (get_venv W venvscache requested_deps);
  venv_data ←
    match venv_data with
    | None =>
        '(venv_data, installed) ← call (CreateVenv requested_deps)
                                       (create_venv W requested_deps);
        (* store this new venv in the cache *)
        call (Store venvscache installed venv_data)
             (store W venvscache installed venv_data);;
        mret venv_data
    | Some venv_data => mret venv_data
    end;

  (* run forest run!! *)
  env_bin_path ← getitem venv_data "env_bin_path";
  let python_exe := os_path_join env_bin_path "python3" in
  p ←
    (if interactive then
       debug "Calling the interactive Python interpreter" [];;
       call (Popen [python_exe]) (popen W [python_exe])
     else
       debug "Calling the child Python program %r with options %s"
             [AStr child_program; AList child_options];;
       p ← call (Popen ([python_exe; child_program] ++ child_options))
                (popen W ([python_exe; child_program] ++ child_options));
       (* redirect these signals *)
       for_ REDIRECTED_SIGNALS (fun s => signal_signal s (SignalHandler p));;
       mret p);

  (* wait child to finish, end *)
  rc ← wait W p;
  if bool_decide (rc ≠ 0) then
    debug "Child process not finished correctly: returncode=%d" [AInt rc]
  else mret tt.

(** *** Reading a run *)

(** [go] started by the interpreter: no handler registered yet, nothing
    done yet. *)
Definition outcome (W : world) (version : string) (argv : list string)
  : result unit :=
  (go W version argv initial).1.

Definition final (W : world) (version : string) (argv : list string) : state :=
  (go W version argv initial).2.

(** The value [go] gives to its local [interactive]. *)
Definition interactive_mode (W : world) : bool :=
  match _parse_argv (sys_argv W) with
  | Ok (fades_options, _, _) =>
      in_ "-i" fades_options || in_ "--interactive" fades_options
  | _ => false
  end.

(** What relaying the signals [sigs] to the child [p] looks like in the
    trace: for each of them, in order, the log record and the same signal
    sent to the child. *)
Definition relayed (p : process) (sigs : list Signals) : list event :=
  s ← sigs;
  [Log DEBUG "Redirecting signal %s to child" [ASig s]; Kill (pid p) s].

(** What a child exit code [rc] leaves in the trace after the wait. *)
Definition exit_report (rc : Z) : list event :=
  if bool_decide (rc ≠ 0)
  then [Log DEBUG "Child process not finished correctly: returncode=%d"
            [AInt rc]]
  else [].

(** The events a signal handler can produce. *)
Definition relay_event (ev : event) : Prop :=
  match ev with
  | Log DEBUG _ _ | Kill _ _ => True
  | _ => False
  end.


Definition is_build (ev : event) : bool :=
  match ev with CreateVenv _ => true | _ => false end.

Definition is_store (ev : event) : bool :=
  match ev with Store _ _ _ => true | _ => false end.

(** [st] with [evs] added to its trace. *)
Definition extend (st : state) (evs : list event) : state :=
  {| handlers := handlers st; trace := trace st ++ evs |}.

End Supervisor.

(** ** What the docstring of [_parse_argv] says

    "After fades itself, everything starting with a '-' is a parameter for
    fades, then the rest is for child program."  The three definitions
    below follow these words and the specification's, not the code. *)

(** The maximal leading run of arguments that begin with ['-']. *)
Fixpoint leading_options (args : list string) : list string :=
  match args with
  | a :: args' =>
      if Str.startswith "-" a then a :: leading_options args' else []
  | [] => []
  end.

(** What follows that run. *)
Fixpoint after_options (args : list string) : list string :=
  match args with
  | a :: args' => if Str.startswith "-" a then after_options args' else args
  | [] => []
  end.

Definition parse_argv_spec (argv : list string)
  : list string * string * list string :=
  let args := drop 1 argv in
  let fades_options := concat (Str.split <$> leading_options args) in
  match after_options args with
  | [] => (fades_options, EmptyString, [])
  | child_program :: child_options =>
      (fades_options, child_program, child_options)
  end.

(** ** Sample invocations *)

Module Demo.

(** Requirements and installed packages as lists of requirement strings. *)
Abbreviation deps := (list string).

Definition venv : gmap string string :=
  <["env_bin_path" := "/home/user/.fades/3f1c/bin"]>
    (<["env_path" := "/home/user/.fades/3f1c"]> ∅).

Definition child : process := {| pid := 4242 |}.

(** A machine on which everything around [go] works: [cached] says
    whether the cache knows an environment, [launch] what process creation
    answers, [sigs] which signals arrive during the wait and [rc] the exit
    code of the child. *)
Definition world_of (argv : list string) (cached : bool)
    (launch : result process) (sigs : list Signals) (rc : Z)
  : @world deps deps :=
  {| sys_argv := argv;
     sys_version_info := "sys.version_info(major=3, minor=4)";
     sys_platform := "linux";
     parse_string := fun s => Ok (Str.split s);
     parse_file := fun _ => Ok ["requests>=2.0"];
     get_basedir := Ok "/home/user/.fades";
     get_venv := fun _ _ => Ok (if cached then Some venv else None);
     create_venv := fun _ => Ok (venv, ["requests==2.3.0"]);
     store := fun _ _ _ => Ok tt;
     popen := fun _ => launch;
     incoming := sigs;
     returncode := rc |}.

(** [fades -v script.py --flag "x y"], nothing cached. *)
Definition script (sigs : list Signals) (rc : Z) : @world deps deps :=
  world_of ["fades"; "-v"; "script.py"; "--flag"; "x y"] false (Ok child) sigs rc.

(** [fades -i requests], environment cached. *)
Definition interactive (rc : Z) : @world deps deps :=
  world_of ["fades"; "-i"; "requests"] true (Ok child) [] rc.

(** [fades script.py] when the interpreter of the environment is missing. *)
Definition broken : @world deps deps :=
  world_of ["fades"; "script.py"] true (Raise (External "FileNotFoundError"))
           [] 0.

Definition script_args : list string :=
  ["/home/user/.fades/3f1c/bin/python3"; "script.py"; "--flag"; "x y"].

End Demo.

(** ** More readings of a command line and of a run *)

(** [any(c.isspace() for c in s)] *)
Fixpoint has_whitespace (s : string) : bool :=
  match s with
  | EmptyString => false
  | String c s' => Str.isspace c || has_whitespace s'
  end.

(** The line [go] prints when there is no child program (the same text in
    both branches of the test on [interactive]). *)
Definition usage_error : string :=
  "ERROR: the 'child program' is mandatory (unless --interactive).".

Section Reading.

Context {Deps Installed : Type}.
Implicit Types (W : @world Deps Installed).

(** The values [go] gives to its locals [verbose] and [quiet]. *)
Definition verbose_mode W : bool :=
  match _parse_argv (sys_argv W) with
  | Ok (fades_options, _, _) =>
      in_ "-v" fades_options || in_ "--verbose" fades_options
  | _ => false
  end.

Definition quiet_mode W : bool :=
  match _parse_argv (sys_argv W) with
  | Ok (fades_options, _, _) =>
      in_ "-q" fades_options || in_ "--quiet" fades_options
  | _ => false
  end.

(** The call recorded as [ev] raises [e] in the world [W]. *)
Definition raises W (ev : @event Deps Installed) (e : exn) : Prop :=
  match ev with
  | ParseString s => parse_string W s = Raise e
  | ParseFile path => parse_file W path = Raise e
  | GetBasedir => get_basedir W = Raise e
  | GetVenv index deps => get_venv W index deps = Raise e
  | CreateVenv deps => create_venv W deps = Raise e
  | Store index installed venv_data =>
      store W index installed venv_data = Raise e
  | Popen args => popen W args = Raise e
  | _ => False
  end.

Definition is_print (ev : @event Deps Installed) : Prop :=
  match ev with Print _ => True | _ => False end.

(** Every signal sent in [evs] is one of [sigs], and it goes to the
    process that the handler registered for it in [st] has captured. *)
Definition sent_by (st : @state Deps Installed) (sigs : list Signals)
    (evs : list (@event Deps Installed)) : Prop :=
  forall q s, Kill q s ∈ evs ->
    s ∈ sigs /\ exists p, handlers st !! s = Some (SignalHandler p) /\ q = pid p.

(** How many times a child was launched. *)
Fixpoint launches (tr : list (@event Deps Installed)) : nat :=
  match tr with
  | [] => 0%nat
  | Popen _ :: tr' => S (launches tr')
  | _ :: tr' => launches tr'
  end.

End Reading.

(** ** More sample invocations *)

Module Samples.

(** [fades script.py], nothing cached, and the installation fails. *)
Definition build_fails : @world Demo.deps Demo.deps :=
  {| sys_argv := ["fades"; "script.py"];
     sys_version_info := "sys.version_info(major=3, minor=4)";
     sys_platform := "linux";
     parse_string := fun s => Ok (Str.split s);
     parse_file := fun _ => Ok ["nosuchpackage"];
     get_basedir := Ok "/home/user/.fades";
     get_venv := fun _ _ => Ok None;
     create_venv := fun _ => Raise (External "CalledProcessError");
     store := fun _ _ _ => Ok tt;
     popen := fun _ => Ok Demo.child;
     incoming := [];
     returncode := 0 |}.

(** An environment description without its bin path. *)
Definition venv_without_bin : gmap string string :=
  <["env_path" := "/home/user/.fades/3f1c"]> ∅.

(** [fades script.py] when the cache answers with that description. *)
Definition no_bin_path : @world Demo.deps Demo.deps :=
  {| sys_argv := ["fades"; "script.py"];
     sys_version_info := "sys.version_info(major=3, minor=4)";
     sys_platform := "linux";
     parse_string := fun s => Ok (Str.split s);
     parse_file := fun _ => Ok ["requests>=2.0"];
     get_basedir := Ok "/home/user/.fades";
     get_venv := fun _ _ => Ok (Some venv_without_bin);
     create_venv := fun _ => Ok (Demo.venv, ["requests==2.3.0"]);
     store := fun _ _ _ => Ok tt;
     popen := fun _ => Ok Demo.child;
     incoming := [];
     returncode := 0 |}.

(** A command line given to [fades]; everything around it works. *)
Definition run_of (argv : list string) : @world Demo.deps Demo.deps :=
  Demo.world_of argv true (Ok Demo.child) [] 0.

End Samples.

(** ** Signals between the launch and the wait *)

Section Arrivals.

Context {Deps Installed : Type}.





End Arrivals.

(** ** Sample arrivals *)

Module Windows.



(** [fades script.py], environment cached. *)
Definition script : @world Demo.deps Demo.deps :=
  Demo.world_of ["fades"; "script.py"] true (Ok Demo.child) [] 0.

End Windows.

(** * Properties *)

(** ** Running the definitions *)

Example parse_shebang :
  _parse_argv ["fades"; "-v  -q"; "-i"; "script.py"; "-x"; "a b"]
  = Ok (["-v"; "-q"; "-i"], "script.py", ["-x"; "a b"]).
Proof. reflexivity. Qed.

Example parse_no_child : _parse_argv ["fades"; "-v"] = Ok (["-v"], EmptyString, []).
Proof. reflexivity. Qed.

Example parse_nothing : _parse_argv [] = Ok ([], EmptyString, []).
Proof. reflexivity. Qed.

Example parse_empty_argument : _parse_argv ["fades"; "-v"; EmptyString; "x"] = Raise IndexError.
Proof. reflexivity. Qed.

Example split_whitespace :
  Str.split ("  a" +:+ String "009" (String "010" "bc ")) = ["a"; "bc"].
Proof. reflexivity. Qed.

Example split_keeps_no_empty_word : Str.split "   " = [].
Proof. reflexivity. Qed.

Example join_bin_path :
  os_path_join "/home/user/.fades/3f1c/bin" "python3"
  = "/home/user/.fades/3f1c/bin/python3".
Proof. reflexivity. Qed.

Example join_trailing_separator : os_path_join "/venv/bin/" "python3" = "/venv/bin/python3".
Proof. reflexivity. Qed.

Example script_run_outcome :
  outcome (Demo.script [SIGINT; SIGTERM] 7) "1.0" [] = Ok tt.
Proof. reflexivity. Qed.

Example script_run_tail :
  drop 9 (trace (final (Demo.script [SIGINT] 7) "1.0" []))
  = [Popen Demo.script_args;
     Log DEBUG "Redirecting signal %s to child" [ASig SIGINT];
     Kill 4242 SIGINT;
     Wait 4242;
     Log DEBUG "Child process not finished correctly: returncode=%d" [AInt 7]].
Proof. reflexivity. Qed.

Example unhandled_signal_ends_the_supervisor :
  outcome (Demo.script [SIGINT; SIGHUP] 0) "1.0" [] = Killed SIGHUP.
Proof. reflexivity. Qed.

(** [go] handed a command line asking for the version, while [sys.argv]
    names a script: the script is run. *)
Example parameter_argv_is_not_read :
  outcome (Demo.script [] 0) "1.0" ["fades"; "-V"] = Ok tt
  /\ Popen Demo.script_args
       ∈ trace (final (Demo.script [] 0) "1.0" ["fades"; "-V"]).
Proof. split; [reflexivity|]. vm_compute. repeat constructor. Qed.

Example version_flag :
  go (Demo.world_of ["fades"; "-V"] false (Ok Demo.child) [] 0) "1.0" [] initial
  = (Raise SystemExit,
     {| handlers := ∅;
        trace := [Print "Running 'fades' version 1.0";
                  Print "    Python: sys.version_info(major=3, minor=4)";
                  Print "    System: linux"] |}).
Proof. reflexivity. Qed.

(** ** [_parse_argv] *)

Lemma leading_after_options args :
  args = leading_options args ++ after_options args.
Proof.
  induction args as [|a args IH]; simpl; [done|].
  destruct (Str.startswith "-" a); simpl; by f_equal.
Qed.

Lemma leading_options_dashed args :
  Forall (fun a => Str.startswith "-" a = true) (leading_options args).
Proof.
  induction args as [|a args IH]; simpl; [constructor|].
  destruct (Str.startswith "-" a) eqn:E; by constructor.
Qed.

Lemma after_options_head args a rest :
  after_options args = a :: rest -> Str.startswith "-" a = false.
Proof.
  induction args as [|b args IH]; simpl; [done|].
  destruct (Str.startswith "-" b) eqn:E; [done|]. by intros [= <- _].
Qed.

(** The loop agrees with the docstring unless the first argument after the
    options is the empty string, which it indexes. *)
Lemma _parse_argv_loop_run argv fades_options :
  _parse_argv_loop argv fades_options =
  match after_options argv with
  | EmptyString :: _ => Raise IndexError
  | rest =>
      Ok (fades_options ++ concat (Str.split <$> leading_options argv), rest)
  end.
Proof.
  revert fades_options.
  induction argv as [|a argv IH]; intros fades_options; simpl.
  - by rewrite app_nil_r.
  - destruct a as [|c a]; simpl; [done|].
    case_bool_decide as Hc; simpl.
    + rewrite IH. destruct (after_options argv) as [|[|] ?]; [| done |];
        by rewrite <- app_assoc.
    + by rewrite app_nil_r.
Qed.

Lemma _parse_argv_run argv :
  _parse_argv argv =
  match after_options (drop 1 argv) with
  | EmptyString :: _ => Raise IndexError
  | _ => Ok (parse_argv_spec argv)
  end.
Proof.
  unfold _parse_argv, parse_argv_spec.
  rewrite _parse_argv_loop_run.
  by destruct (after_options (drop 1 argv)) as [|[|] ?].
Qed.

(** Whenever [_parse_argv] returns, it returns what the docstring says. *)
Lemma _parse_argv_refines_spec argv r :
  _parse_argv argv = Ok r -> r = parse_argv_spec argv.
Proof.
  rewrite _parse_argv_run.
  destruct (after_options (drop 1 argv)) as [|[|] ?]; congruence.
Qed.

(** A child program that was found sits in [argv] right after the options
    and is followed by its own options. *)
Lemma _parse_argv_child argv fades_options child_program child_options :
  _parse_argv argv = Ok (fades_options, child_program, child_options) ->
  child_program <> EmptyString ->
  exists exe,
    argv = exe :: leading_options (drop 1 argv)
               ++ child_program :: child_options
    /\ fades_options = concat (Str.split <$> leading_options (drop 1 argv))
    /\ Str.startswith "-" child_program = false.
Proof.
  intros Hrun Hne. apply _parse_argv_refines_spec in Hrun.
  unfold parse_argv_spec in Hrun.
  destruct argv as [|exe args]; simpl in *; [congruence|].
  rewrite drop_0 in *.
  destruct (after_options args) as [|a rest] eqn:Hafter; [congruence|].
  injection Hrun as -> -> ->. exists exe. split_and!; [|done|].
  - f_equal. rewrite <- Hafter. apply leading_after_options.
  - by eapply after_options_head.
Qed.

(** C9.  [_parse_argv] is partial.  Whenever the argument right after the
    executable name is the empty string, the test [argv[0][0]] raises
    IndexError and nothing is returned.  Whenever none of the arguments
    after the executable name is the empty string, [_parse_argv] returns. *)
Theorem _parse_argv_partial :
  (forall exe rest, _parse_argv (exe :: EmptyString :: rest) = Raise IndexError)
  /\ (forall argv,
        Forall (fun a => a <> EmptyString) (drop 1 argv) ->
        exists r, _parse_argv argv = Ok r).
Proof.
  split; [done|].
  intros argv Hall. rewrite _parse_argv_run.
  destruct (after_options (drop 1 argv)) as [|a rest] eqn:Hafter; [by eexists|].
  assert (a ∈ drop 1 argv) as Hin.
  { rewrite (leading_after_options (drop 1 argv)), Hafter.
    apply elem_of_app. right. by left. }
  rewrite Forall_forall in Hall. specialize (Hall a Hin).
  destruct a; [done|by eexists].
Qed.

Lemma _parse_argv_partial_witness :
  Forall (fun a => a <> EmptyString)
         (drop 1 ["fades"; "-v -q"; "script.py"; "-x"; "--"])
  /\ exists r, _parse_argv ["fades"; "-v -q"; "script.py"; "-x"; "--"] = Ok r.
Proof.
  assert (Forall (fun a => a <> EmptyString)
                 (drop 1 ["fades"; "-v -q"; "script.py"; "-x"; "--"])) as H.
  { simpl. repeat constructor; discriminate. }
  split; [exact H|]. exact (proj2 _parse_argv_partial _ H).
Defined.

(** C10.  The documented splitting (the options run up to the first
    argument that does not begin with ['-'], that argument is the child
    program, the rest is passed on verbatim) fails on [fades ''].  The
    empty string does not begin with ['-'], so by the docstring it is the
    child program; the code indexes its first character and raises
    IndexError.  That is the only way the two differ: on every [argv] the
    code raises when the first argument after the options is the empty
    string, and returns the documented splitting otherwise. *)
Theorem _parse_argv_empty_child_program :
  _parse_argv ["fades"; EmptyString] = Raise IndexError
  /\ parse_argv_spec ["fades"; EmptyString] = ([], EmptyString, [])
  /\ forall argv,
       _parse_argv argv =
       match after_options (drop 1 argv) with
       | EmptyString :: _ => Raise IndexError
       | _ => Ok (parse_argv_spec argv)
       end.
Proof. split_and!; [reflexivity | reflexivity | apply _parse_argv_run]. Qed.

(** ** Running the monad *)

Section Runs.

Context {Deps Installed : Type}.
Implicit Types (W : @world Deps Installed) (st : @state Deps Installed).

Lemma bind_run {A B} (m : M A) (k : A -> M B) st :
  (m ≫= k) st =
  match m st with
  | (Ok a, st') => k a st'
  | (Raise e, st') => (Raise e, st')
  | (Killed s, st') => (Killed s, st')
  end.
Proof. reflexivity. Qed.

Lemma ret_run {A} (a : A) st : (mret a : M A) st = (Ok a, st).
Proof. reflexivity. Qed.

Lemma extend_extend st evs1 evs2 :
  extend (extend st evs1) evs2 = extend st (evs1 ++ evs2).
Proof. unfold extend; simpl. by rewrite app_assoc. Qed.

Lemma extend_nil st : extend st [] = st.
Proof. destruct st. unfold extend; simpl. by rewrite app_nil_r. Qed.

(** *** Signals during the wait *)

Lemma deliver_run s st :
  deliver s st =
  match handlers st !! s with
  | Some (SignalHandler p) => (Ok tt, extend st (relayed p [s]))
  | None =>
      (match s with SIGINT => Raise KeyboardInterrupt | _ => Killed s end, st)
  end.
Proof.
  unfold deliver. destruct (handlers st !! s) as [[p]|]; [|by destruct s].
  unfold _signal_handler, debug, os_kill. rewrite bind_run.
  unfold emit, extend; simpl. by rewrite <- app_assoc.
Qed.

Lemma relayed_relay_event (p : process) sigs :
  Forall (@relay_event Deps Installed) (relayed p sigs).
Proof.
  induction sigs as [|s sigs IH]; [constructor|].
  unfold relayed; simpl. by repeat constructor.
Qed.

Lemma relay_event_elem_of (ev : @event Deps Installed) evs :
  Forall relay_event evs -> ev ∈ evs -> relay_event ev.
Proof. rewrite Forall_forall. auto. Qed.

(** Signals never touch the handler table, and all they add to the trace
    is relaying. *)
Lemma deliver_all_run sigs st :
  exists r evs,
    deliver_all sigs st = (r, extend st evs) /\ Forall relay_event evs.
Proof.
  revert st. induction sigs as [|s sigs IH]; intros st; simpl.
  - exists (Ok tt), []. by rewrite extend_nil.
  - rewrite bind_run, deliver_run.
    destruct (handlers st !! s) as [[p]|].
    + destruct (IH (extend st (relayed p [s]))) as (r & evs & -> & Hevs).
      exists r, (relayed p [s] ++ evs). rewrite extend_extend. split; [done|].
      apply Forall_app. split; [|done]. apply relayed_relay_event.
    + exists (match s with SIGINT => Raise KeyboardInterrupt | _ => Killed s end), [].
      rewrite extend_nil. split; [|done]. by destruct s.
Qed.

(** When every arriving signal has the handler of [p], each is relayed and
    the supervisor goes on. *)
Lemma deliver_all_handled p sigs st :
  Forall (fun s => handlers st !! s = Some (SignalHandler p)) sigs ->
  deliver_all sigs st = (Ok tt, extend st (relayed p sigs)).
Proof.
  revert st. induction sigs as [|s sigs IH]; intros st Hall; simpl.
  - by rewrite extend_nil.
  - apply Forall_cons in Hall as [Hs Hall].
    rewrite bind_run, deliver_run, Hs, IH by done.
    by rewrite extend_extend.
Qed.

Lemma wait_run W p st :
  exists evs, Forall relay_event evs /\
    (wait W p st = (Ok (returncode W), extend st (evs ++ [Wait (pid p)]))
     \/ exists r, wait W p st = (r, extend st evs) /\ forall rc, r <> Ok rc).
Proof.
  unfold wait. rewrite bind_run.
  destruct (deliver_all_run (incoming W) st) as (r & evs & -> & Hevs).
  exists evs. split; [done|].
  destruct r as [[]| |]; [left|right..].
  - unfold emit, extend; simpl. by rewrite app_assoc.
  - by eexists.
  - by eexists.
Qed.

Lemma wait_handled W p st :
  Forall (fun s => handlers st !! s = Some (SignalHandler p)) (incoming W) ->
  wait W p st =
  (Ok (returncode W), extend st (relayed p (incoming W) ++ [Wait (pid p)])).
Proof.
  intros Hall. unfold wait. rewrite bind_run, (deliver_all_handled p) by done.
  unfold emit, extend; simpl. by rewrite app_assoc.
Qed.

(** The handler table after the [for] loop over [REDIRECTED_SIGNALS]. *)
Lemma forwarding_lookup (h : handler) (s : Signals) :
  (<[SIGTERM:=h]> (<[SIGSEGV:=h]> (<[SIGINT:=h]> (<[SIGILL:=h]>
     (<[SIGFPE:=h]> (<[SIGABRT:=h]> (∅ : gmap Signals handler))))))) !! s
  = if bool_decide (s ∈ REDIRECTED_SIGNALS) then Some h else None.
Proof. by destruct s. Qed.

Lemma prefix_nil {A} (l : list A) : l = [] ++ l.
Proof. reflexivity. Qed.

Lemma prefix_cons {A} (x : A) l pre r :
  l = pre ++ r -> x :: l = (x :: pre) ++ r.
Proof. by intros ->. Qed.

End Runs.

(** ** Running [go] symbolically

    [go] is a chain of binds; every link either ends the run or hands on.
    The tactics below walk a hypothesis [H : go W v a initial = (r, st')]
    down that chain, splitting on every answer of the [world], until [r]
    and [st'] are known; the wait is entered through [wait_run]. *)

Arguments os_path_join : simpl never.
Arguments in_ : simpl never.
Arguments Str.is_empty : simpl never.
Arguments wait : simpl never.
Arguments _parse_argv : simpl never.
Arguments M_bind : simpl never.
Arguments mbind : simpl never.

Ltac exec_step H :=
  first
  [ rewrite bind_run in H
  | rewrite ret_run in H
  | progress cbn in H
  | progress unfold emit in H
  | lazymatch type of H with
    | context [SetUp ?l] =>
        lazymatch l with
        | context [match _ with _ => _ end] =>
            let lvl := fresh "log_level" in
            set (lvl := l) in H; clearbody lvl
        end
    end
  | match type of H with
    | context [match ?x with _ => _ end] =>
        lazymatch x with
        | context [match _ with _ => _ end] => fail
        | context [mbind] => fail
        | _ =>
            lazymatch type of x with
            | prod (result _) _ => fail
            | _ => destruct x eqn:?
            end
        end
    end ].

(** At the wait: either the child exit is reached, or a signal without a
    handler ends the run first. *)
Ltac exec_wait H :=
  lazymatch type of H with
  | context [wait ?W ?p ?st] =>
      let evs := fresh "evs" in
      let Hevs := fresh "Hevs" in
      let Hw := fresh "Hw" in
      let rw := fresh "rw" in
      let Hrw := fresh "Hrw" in
      destruct (wait_run W p st) as (evs & Hevs & [Hw | (rw & Hw & Hrw)]);
      rewrite Hw in H; clear Hw;
      [| destruct rw; [by exfalso; eapply Hrw|..]];
      unfold extend in H
  | _ => idtac
  end.


Ltac go_exec_with waittac H :=
  unfold go, call, print, debug, warning, sys_exit, raise, getitem in H;
  repeat exec_step H; waittac H; repeat exec_step H.

Ltac go_run_with waittac W v a :=
  unfold outcome, final;
  let r := fresh "r" in
  let st' := fresh "st'" in
  let Hgo := fresh "Hgo" in
  destruct (go W v a initial) as [r st'] eqn:Hgo; simpl;
  go_exec_with waittac Hgo; injection Hgo as <- <-; simpl.

Ltac go_run W v a := go_run_with exec_wait W v a.

(** [H : ev ∈ l] for a trace [l] that is known up to what the signal
    handlers added: one goal per place where [ev] can be. *)
Ltac elem_inv H :=
  lazymatch type of H with
  | _ ∈ relayed ?p ?sigs =>
      by apply (relay_event_elem_of _ _ (relayed_relay_event p sigs)) in H
  | _ ∈ [] => by apply elem_of_nil in H
  | _ ∈ _ :: _ =>
      apply elem_of_cons in H as [H|H]; [try discriminate H | elem_inv H]
  | _ ∈ _ ++ _ => apply elem_of_app in H as [H|H]; elem_inv H
  | _ ∈ ?evs =>
      try (match goal with
           | Hevs : Forall relay_event evs |- _ =>
               by apply (relay_event_elem_of _ _ Hevs) in H
           end)
  end.

Ltac elem_solve :=
  solve [ repeat first [ apply list_elem_of_here | apply list_elem_of_further ] ].

(** Two recorded answers to the same call are the same answer. *)
Ltac same_answer :=
  repeat match goal with
         | H1 : ?f = Ok _, H2 : ?f = Ok _ |- _ =>
             rewrite H1 in H2; injection H2 as ?; simplify_eq
         end.

Ltac use_eqs :=
  repeat match goal with
         | H : ?x = _ |- context [?x] => rewrite H
         end.

(** [l = ?pre ++ r]: find the prefix. *)
Ltac find_prefix :=
  first [ apply prefix_nil | reflexivity | apply prefix_cons; find_prefix ].

Ltac split_trace :=
  rewrite <- ?app_assoc; simpl; eexists; find_prefix.

(** At the wait, knowing by [Hsig] that every signal that arrives has a
    handler: the mode is script mode and the signal is a redirected one. *)
Ltac exec_wait_benign Hsig H :=
  lazymatch type of H with
  | context [wait ?W ?p ?st] =>
      first
        [ rewrite (wait_handled W p st) in H
            by (eapply Forall_impl; [exact Hsig|];
                intros ? [? ?]; simpl; first
                  [ done
                  | rewrite forwarding_lookup;
                    by rewrite bool_decide_eq_true_2 ]);
          unfold extend in H
        | exec_wait H ]
  | _ => idtac
  end.

(** ** [go] *)

Section Go.

Context {Deps Installed : Type}.
Implicit Types (W : @world Deps Installed).

(** Once the child has exited, [go] logs a non-zero code and returns
    normally; the wait is the last thing but that record. *)
Lemma go_after_child_exit W v a p :
  Wait p ∈ trace (final W v a) ->
  outcome W v a = Ok tt
  /\ exists pre,
       trace (final W v a) = pre ++ [Wait p] ++ exit_report (returncode W).
Proof.
  go_run W v a; intros Hin; elem_inv Hin.
  all: injection Hin as ->.
  all: split; [done|]; unfold exit_report; use_eqs; split_trace.
Qed.

(** C1, as the code has it.  For every exit code [c] of the child: once
    the child has exited (the wait returned), [go] returns normally and
    without a value, whatever [c] is; [c] is read from the wait and shows
    only in the debug record that follows a non-zero code.  [go] hands no
    status on. *)
Theorem go_returns_none_after_child_exit W v a p c :
  returncode W = c ->
  Wait p ∈ trace (final W v a) ->
  outcome W v a = Ok tt
  /\ exists pre, trace (final W v a) = pre ++ [Wait p] ++ exit_report c.
Proof. intros <-. apply go_after_child_exit. Qed.

(** When a child is launched and every signal that reaches the supervisor
    during the wait has a handler, the wait returns: the child exit is
    reached and [go] returns normally. *)
Lemma child_exit_is_reached W v a args p :
  Forall (fun s => interactive_mode W = false /\ s ∈ REDIRECTED_SIGNALS)
         (incoming W) ->
  Popen args ∈ trace (final W v a) ->
  popen W args = Ok p ->
  outcome W v a = Ok tt
  /\ exists pre,
       trace (final W v a)
       = pre ++ [Wait (pid p)] ++ exit_report (returncode W).
Proof.
  unfold interactive_mode. intros Hsig. revert Hsig.
  unfold outcome, final.
  destruct (go W v a initial) as [r st'] eqn:Hgo; simpl.
  unfold go, call, print, debug, warning, sys_exit, raise, getitem in Hgo.
  repeat exec_step Hgo.
  all: intros Hsig; exec_wait_benign Hsig Hgo; repeat exec_step Hgo.
  all: injection Hgo as <- <-; simpl.
  all: intros Hin Hpopen; elem_inv Hin; injection Hin as ->; try congruence.
  all: match goal with
       | H1 : popen _ ?x = Ok ?q, H2 : popen _ ?x = Ok ?q' |- _ =>
           assert (q = q') as -> by congruence
       end.
  all: split; [done|]; unfold exit_report; use_eqs; split_trace.
Qed.

(** C7.  A non-zero exit code of the child is reported at debug level and
    nothing else happens.  In both modes: once the child is launched (and
    no signal ends the supervisor during the wait), [go] waits for it,
    then writes one DEBUG record carrying the code, which is the last
    thing it does, and returns normally (no exception leaves it).  The
    same holds of every run in which the wait returned. *)
Theorem nonzero_exit_is_only_logged W v a :
  (forall args p,
      Forall (fun s => interactive_mode W = false /\ s ∈ REDIRECTED_SIGNALS)
             (incoming W) ->
      Popen args ∈ trace (final W v a) ->
      popen W args = Ok p ->
      returncode W ≠ 0 ->
      outcome W v a = Ok tt
      /\ exists pre,
           trace (final W v a)
           = pre ++ [Wait (pid p);
                     Log DEBUG
                         "Child process not finished correctly: returncode=%d"
                         [AInt (returncode W)]])
  /\ (forall p,
        Wait p ∈ trace (final W v a) ->
        returncode W ≠ 0 ->
        outcome W v a = Ok tt
        /\ exists pre,
             trace (final W v a)
             = pre ++ [Wait p;
                       Log DEBUG
                           "Child process not finished correctly: returncode=%d"
                           [AInt (returncode W)]]).
Proof.
  split.
  - intros args p Hsig Hin Hpopen Hrc.
    destruct (child_exit_is_reached W v a args p Hsig Hin Hpopen)
      as [Hout [pre Htr]].
    split; [done|]. exists pre. rewrite Htr. unfold exit_report.
    by rewrite bool_decide_eq_true_2.
  - intros p Hin Hrc.
    destruct (go_after_child_exit W v a p Hin) as [Hout [pre Htr]].
    split; [done|]. exists pre. rewrite Htr. unfold exit_report.
    by rewrite bool_decide_eq_true_2.
Qed.

(** C6.  When process creation raises, the exception leaves [go] at once:
    the launch is the last thing in the trace and no signal handler has
    been registered. *)
Theorem launch_failure_precedes_handlers W v a args e :
  Popen args ∈ trace (final W v a) ->
  popen W args = Raise e ->
  outcome W v a = Raise e
  /\ handlers (final W v a) = ∅
  /\ last (trace (final W v a)) = Some (Popen args).
Proof.
  go_run W v a; intros Hin Hpopen; elem_inv Hin.
  all: injection Hin as ->; try congruence.
  all: split_and!; [congruence|done|done].
Qed.

(** C4.  The redirected signals are the six documented ones.  In
    interactive mode no handler is registered at all.  In every run a
    signal that has a handler is one of the six and the mode is not
    interactive.  In script mode, once the child is launched, each of the
    six has the handler that forwards to that child. *)
Theorem handlers_installed W v a :
  REDIRECTED_SIGNALS = [SIGABRT; SIGFPE; SIGILL; SIGINT; SIGSEGV; SIGTERM]
  /\ (interactive_mode W = true -> handlers (final W v a) = ∅)
  /\ (forall s, is_Some (handlers (final W v a) !! s) ->
        interactive_mode W = false /\ s ∈ REDIRECTED_SIGNALS)
  /\ (forall args p,
        interactive_mode W = false ->
        Popen args ∈ trace (final W v a) -> popen W args = Ok p ->
        forall s, s ∈ REDIRECTED_SIGNALS ->
                  handlers (final W v a) !! s = Some (SignalHandler p)).
Proof.
  split; [done|]. unfold interactive_mode.
  go_run W v a.
  all: split_and!;
    [ try done
    | intros sg [hd Hsg]; try (by rewrite lookup_empty in Hsg)
    | intros args proc Hmode Hin Hpopen sg Hsg; try done; elem_inv Hin;
      injection Hin as ->; try congruence ].
  all: rewrite forwarding_lookup in *.
  all: try (rewrite bool_decide_eq_true_2 by done; congruence).
  all: by case_bool_decide.
Qed.

(** C3.  The builder is called exactly when the cache lookup answered
    None; the store is called exactly when the builder was called and
    returned, with what it returned; after a lookup that found an
    environment there is neither a build nor a store. *)
Theorem cache_miss_builds_and_stores W v a :
  let tr := trace (final W v a) in
  (forall deps,
      CreateVenv deps ∈ tr <->
      exists index, GetVenv index deps ∈ tr /\ get_venv W index deps = Ok None)
  /\ (forall index installed venv_data,
        Store index installed venv_data ∈ tr <->
        exists deps,
          GetVenv index deps ∈ tr /\ CreateVenv deps ∈ tr
          /\ create_venv W deps = Ok (venv_data, installed))
  /\ (forall index deps venv_data,
        GetVenv index deps ∈ tr ->
        get_venv W index deps = Ok (Some venv_data) ->
        forall ev, ev ∈ tr -> is_build ev = false /\ is_store ev = false).
Proof.
  go_run W v a;
  (split_and!;
    [ intros deps; (split;
      [ intros Hin; elem_inv Hin; injection Hin as ->;
        eexists; (split; [elem_solve | done])
      | intros (index & Hin & Hget); elem_inv Hin; injection Hin as -> ->;
        first [congruence | elem_solve] ])
    | intros index installed venv_data; (split;
      [ intros Hin; elem_inv Hin; injection Hin as -> -> ->;
        eexists; (split_and!; [elem_solve | elem_solve | done])
      | intros (deps & Hin & Hbuild & Hcreate);
        elem_inv Hin; injection Hin as -> ->;
        elem_inv Hbuild; try injection Hbuild as ->;
        first [congruence | same_answer; elem_solve] ])
    | intros index deps venv_data Hin Hget ev Hev;
      elem_inv Hin; injection Hin as -> ->; try congruence;
      elem_inv Hev; try (subst ev; done) ]).
  all: match goal with
       | Hevs : Forall relay_event ?evs, Hev : _ ∈ ?evs |- _ =>
           apply (relay_event_elem_of _ _ Hevs) in Hev; by destruct ev
       end.
Qed.

(** Whatever is launched has the command line that [go] builds. *)
Lemma launched_command_line W v a args :
  Popen args ∈ trace (final W v a) ->
  exists exe dashes child_program child_options index deps venv_data env_bin_path,
    sys_argv W = exe :: dashes ++ child_program :: child_options
    /\ Forall (fun o => Str.startswith "-" o = true) dashes
    /\ Str.startswith "-" child_program = false
    /\ GetVenv index deps ∈ trace (final W v a)
    /\ (get_venv W index deps = Ok (Some venv_data)
        \/ get_venv W index deps = Ok None
           /\ exists installed, create_venv W deps = Ok (venv_data, installed))
    /\ venv_data !! "env_bin_path" = Some env_bin_path
    /\ args = if interactive_mode W
              then [os_path_join env_bin_path "python3"]
              else [os_path_join env_bin_path "python3"; child_program]
                     ++ child_options.
Proof.
  unfold interactive_mode.
  go_run W v a; intros Hin; elem_inv Hin; injection Hin as ->.
  all: match goal with
       | Hp : _parse_argv _ = Ok (_, ?cp, _), He : Str.is_empty ?cp = false |- _ =>
           destruct (_parse_argv_child _ _ _ _ Hp) as (exe & Hargv & _ & Hdash);
           [by destruct cp|]
       end.
  all: eexists exe, _, _, _, _, _, _, _;
    (split_and!;
     [ exact Hargv
     | apply leading_options_dashed
     | exact Hdash
     | elem_solve
     | first [ left; eassumption
             | right; (split; [eassumption | eexists; eassumption]) ]
     | eassumption
     | reflexivity ]).
Qed.

(** And a child is launched, in both modes, whenever the command line is
    accepted, the requirements are parsed and an environment with a bin
    path is resolved. *)
Lemma child_is_launched W v a
    fades_options child_program child_options deps basedir venv_data
    env_bin_path :
  _parse_argv (sys_argv W) = Ok (fades_options, child_program, child_options) ->
  in_ "-V" fades_options || in_ "--version" fades_options = false ->
  in_ "-h" fades_options || in_ "--help" fades_options = false ->
  child_program <> EmptyString ->
  (if interactive_mode W
   then parse_string W child_program else parse_file W child_program)
  = Ok deps ->
  get_basedir W = Ok basedir ->
  (get_venv W (os_path_join basedir "venvs.idx") deps = Ok (Some venv_data)
   \/ get_venv W (os_path_join basedir "venvs.idx") deps = Ok None
      /\ exists installed,
           create_venv W deps = Ok (venv_data, installed)
           /\ store W (os_path_join basedir "venvs.idx") installed venv_data
              = Ok tt) ->
  venv_data !! "env_bin_path" = Some env_bin_path ->
  Popen (if interactive_mode W
         then [os_path_join env_bin_path "python3"]
         else [os_path_join env_bin_path "python3"; child_program]
                ++ child_options)
    ∈ trace (final W v a).
Proof.
  unfold interactive_mode.
  go_run W v a; intros [= <- <- <-] HV Hh Hcp Hdeps Hbase Hres Hkey;
    try congruence.
  all: try match goal with
           | He : Str.is_empty ?s = true, Hne : ?s <> EmptyString |- _ =>
               by destruct s
           end.
  all: simpl in *; try congruence; same_answer; try congruence.
  all: destruct Hres as [Hhit | (Hmiss & inst & Hbuilt & Hstored)];
    try congruence; same_answer; try congruence.
  all: try match goal with
       | H1 : ?d !! ?k = Some ?x, H2 : ?d !! ?k = Some ?y |- _ =>
           assert (x = y) as -> by congruence
       | H1 : ?d !! ?k = None, H2 : ?d !! ?k = Some _ |- _ => congruence
       end.
  all: try elem_solve.
Qed.

(** C5.  The child is launched with the [python3] of the bin path of the
    resolved environment (the one the cache found, or else the one just
    built and stored): whenever such an environment is resolved the child
    is launched, in script mode with the child program and then the child
    options, which are the arguments that follow the child program in
    [sys.argv], as they are, and in interactive mode with the executable
    alone; and nothing is ever launched with another command line. *)
Theorem child_command_line W v a :
  (forall fades_options child_program child_options deps basedir venv_data
          env_bin_path,
      _parse_argv (sys_argv W) = Ok (fades_options, child_program, child_options) ->
      in_ "-V" fades_options || in_ "--version" fades_options = false ->
      in_ "-h" fades_options || in_ "--help" fades_options = false ->
      child_program <> EmptyString ->
      (if interactive_mode W
       then parse_string W child_program else parse_file W child_program)
      = Ok deps ->
      get_basedir W = Ok basedir ->
      (get_venv W (os_path_join basedir "venvs.idx") deps = Ok (Some venv_data)
       \/ get_venv W (os_path_join basedir "venvs.idx") deps = Ok None
          /\ exists installed,
               create_venv W deps = Ok (venv_data, installed)
               /\ store W (os_path_join basedir "venvs.idx") installed venv_data
                  = Ok tt) ->
      venv_data !! "env_bin_path" = Some env_bin_path ->
      Popen (if interactive_mode W
             then [os_path_join env_bin_path "python3"]
             else [os_path_join env_bin_path "python3"; child_program]
                    ++ child_options)
        ∈ trace (final W v a))
  /\ (forall args,
        Popen args ∈ trace (final W v a) ->
        exists exe dashes child_program child_options index deps venv_data env_bin_path,
          sys_argv W = exe :: dashes ++ child_program :: child_options
          /\ Forall (fun o => Str.startswith "-" o = true) dashes
          /\ Str.startswith "-" child_program = false
          /\ GetVenv index deps ∈ trace (final W v a)
          /\ (get_venv W index deps = Ok (Some venv_data)
              \/ get_venv W index deps = Ok None
                 /\ exists installed, create_venv W deps = Ok (venv_data, installed))
          /\ venv_data !! "env_bin_path" = Some env_bin_path
          /\ args = if interactive_mode W
                    then [os_path_join env_bin_path "python3"]
                    else [os_path_join env_bin_path "python3"; child_program]
                           ++ child_options).
Proof.
  split.
  - intros *. apply child_is_launched.
  - intros args. apply launched_command_line.
Qed.

(** C8.  [go] never reads its [argv] parameter (it parses [sys.argv]): two
    calls that differ only in that argument are the same computation. *)
Theorem go_ignores_argv W version (a1 a2 : list string) :
  go W version a1 = go W version a2.
Proof. reflexivity. Qed.

End Go.

(** ** Signals while the child runs *)

Section Window.

Context {Deps Installed : Type}.
Implicit Types (W : @world Deps Installed) (st : @state Deps Installed).




End Window.



Section Relay.

Context {Deps Installed : Type}.
Implicit Types (W : @world Deps Installed) (st : @state Deps Installed).



End Relay.

(** ** The properties on the sample invocations *)

Lemma go_returns_none_after_child_exit_witness :
  returncode (Demo.script [] 7) = 7
  /\ Wait 4242 ∈ trace (final (Demo.script [] 7) "1.0" [])
  /\ outcome (Demo.script [] 7) "1.0" [] = Ok tt.
Proof.
  assert (Wait 4242 ∈ trace (final (Demo.script [] 7) "1.0" [])) as Hin
    by (vm_compute; elem_solve).
  split_and!; [reflexivity | exact Hin |].
  exact (proj1 (go_returns_none_after_child_exit
                  (Demo.script [] 7) "1.0" [] 4242 7 eq_refl Hin)).
Defined.

(** C1, as stated, fails.  The same invocation with a child that exits
    with 7 and with a child that exits with 0: the child exit is reached in
    both, and [go] ends in the same way in both, returning no value.  So
    nothing computed from how [go] ends is 7 in the first and 0 in the
    second. *)
Lemma exit_code_7_is_not_propagated :
  Wait 4242 ∈ trace (final (Demo.script [] 7) "1.0" [])
  /\ outcome (Demo.script [] 7) "1.0" [] = Ok tt
  /\ outcome (Demo.script [] 0) "1.0" [] = Ok tt
  /\ ~ exists status : result unit -> Z,
         status (outcome (Demo.script [] 7) "1.0" []) = 7
         /\ status (outcome (Demo.script [] 0) "1.0" []) = 0.
Proof.
  split_and!; [vm_compute; elem_solve | reflexivity | reflexivity |].
  intros (status & H7 & H0).
  change (outcome (Demo.script [] 7) "1.0" []) with (Ok tt : result unit) in H7.
  change (outcome (Demo.script [] 0) "1.0" []) with (Ok tt : result unit) in H0.
  congruence.
Qed.

Lemma nonzero_exit_is_only_logged_witness :
  (Forall (fun s => interactive_mode (Demo.interactive 3) = false
                    /\ s ∈ REDIRECTED_SIGNALS)
          (incoming (Demo.interactive 3))
   /\ Popen ["/home/user/.fades/3f1c/bin/python3"]
        ∈ trace (final (Demo.interactive 3) "1.0" [])
   /\ popen (Demo.interactive 3) ["/home/user/.fades/3f1c/bin/python3"]
      = Ok Demo.child
   /\ returncode (Demo.interactive 3) ≠ 0
   /\ outcome (Demo.interactive 3) "1.0" [] = Ok tt)
  /\ (Forall (fun s => interactive_mode (Demo.script [SIGTERM] (-15)) = false
                       /\ s ∈ REDIRECTED_SIGNALS)
             (incoming (Demo.script [SIGTERM] (-15)))
      /\ Popen Demo.script_args
           ∈ trace (final (Demo.script [SIGTERM] (-15)) "1.0" [])
      /\ popen (Demo.script [SIGTERM] (-15)) Demo.script_args = Ok Demo.child
      /\ returncode (Demo.script [SIGTERM] (-15)) ≠ 0
      /\ outcome (Demo.script [SIGTERM] (-15)) "1.0" [] = Ok tt)
  /\ (Wait 4242 ∈ trace (final (Demo.script [SIGTERM] (-15)) "1.0" [])
      /\ outcome (Demo.script [SIGTERM] (-15)) "1.0" [] = Ok tt).
Proof.
  assert (Forall (fun s => interactive_mode (Demo.interactive 3) = false
                           /\ s ∈ REDIRECTED_SIGNALS)
                 (incoming (Demo.interactive 3))) as Hnone
    by constructor.
  assert (Popen ["/home/user/.fades/3f1c/bin/python3"]
            ∈ trace (final (Demo.interactive 3) "1.0" [])) as Hshell
    by (vm_compute; elem_solve).
  assert (returncode (Demo.interactive 3) ≠ 0) as Hrc3 by done.
  assert (Forall (fun s => interactive_mode (Demo.script [SIGTERM] (-15)) = false
                           /\ s ∈ REDIRECTED_SIGNALS)
                 (incoming (Demo.script [SIGTERM] (-15)))) as Hterm
    by (repeat constructor; vm_compute; elem_solve).
  assert (Popen Demo.script_args
            ∈ trace (final (Demo.script [SIGTERM] (-15)) "1.0" [])) as Hrun
    by (vm_compute; elem_solve).
  assert (returncode (Demo.script [SIGTERM] (-15)) ≠ 0) as Hrc15 by done.
  assert (Wait 4242 ∈ trace (final (Demo.script [SIGTERM] (-15)) "1.0" []))
    as Hwait by (vm_compute; elem_solve).
  split_and!;
    [exact Hnone | exact Hshell | reflexivity | exact Hrc3 |
     | exact Hterm | exact Hrun | reflexivity | exact Hrc15 |
     | exact Hwait | ].
  - exact (proj1 (proj1 (nonzero_exit_is_only_logged
                           (Demo.interactive 3) "1.0" [])
                    _ Demo.child Hnone Hshell eq_refl Hrc3)).
  - exact (proj1 (proj1 (nonzero_exit_is_only_logged
                           (Demo.script [SIGTERM] (-15)) "1.0" [])
                    _ Demo.child Hterm Hrun eq_refl Hrc15)).
  - exact (proj1 (proj2 (nonzero_exit_is_only_logged
                           (Demo.script [SIGTERM] (-15)) "1.0" [])
                    4242 Hwait Hrc15)).
Defined.

Lemma child_command_line_witness :
  Popen ["/home/user/.fades/3f1c/bin/python3"]
    ∈ trace (final (Demo.interactive 0) "1.0" [])
  /\ Popen Demo.script_args ∈ trace (final (Demo.script [] 0) "1.0" [])
  /\ exists child_program child_options env_bin_path,
       Demo.script_args
       = [os_path_join env_bin_path "python3"; child_program] ++ child_options.
Proof.
  assert (Popen Demo.script_args ∈ trace (final (Demo.script [] 0) "1.0" []))
    as Hin.
  { exact (proj1 (child_command_line (Demo.script [] 0) "1.0" [])
             ["-v"] "script.py" ["--flag"; "x y"] ["requests>=2.0"]
             "/home/user/.fades" Demo.venv "/home/user/.fades/3f1c/bin"
             eq_refl eq_refl eq_refl ltac:(discriminate) eq_refl eq_refl
             (or_intror
                (conj eq_refl
                   (ex_intro _ ["requests==2.3.0"] (conj eq_refl eq_refl))))
             eq_refl). }
  split_and!; [| exact Hin |].
  - exact (proj1 (child_command_line (Demo.interactive 0) "1.0" [])
             ["-i"] "requests" [] ["requests"]
             "/home/user/.fades" Demo.venv "/home/user/.fades/3f1c/bin"
             eq_refl eq_refl eq_refl ltac:(discriminate) eq_refl eq_refl
             (or_introl eq_refl) eq_refl).
  - destruct (proj2 (child_command_line (Demo.script [] 0) "1.0" []) _ Hin)
      as (exe & dashes & cp & co & index & deps & vd & ebp
          & _ & _ & _ & _ & _ & _ & Hargs).
    exists cp, co, ebp. exact Hargs.
Defined.



Lemma launch_failure_precedes_handlers_witness :
  Popen ["/home/user/.fades/3f1c/bin/python3"; "script.py"]
    ∈ trace (final Demo.broken "1.0" [])
  /\ popen Demo.broken ["/home/user/.fades/3f1c/bin/python3"; "script.py"]
     = Raise (External "FileNotFoundError")
  /\ handlers (final Demo.broken "1.0" []) = ∅.
Proof.
  assert (Popen ["/home/user/.fades/3f1c/bin/python3"; "script.py"]
            ∈ trace (final Demo.broken "1.0" [])) as Hin
    by (vm_compute; elem_solve).
  split_and!; [exact Hin | reflexivity |].
  exact (proj1 (proj2 (launch_failure_precedes_handlers
                         Demo.broken "1.0" [] _ _ Hin eq_refl))).
Defined.

Lemma handlers_installed_witness :
  (interactive_mode (Demo.interactive 0) = true
   /\ handlers (final (Demo.interactive 0) "1.0" []) = ∅)
  /\ (interactive_mode (Demo.script [] 0) = false
      /\ Popen Demo.script_args ∈ trace (final (Demo.script [] 0) "1.0" [])
      /\ popen (Demo.script [] 0) Demo.script_args = Ok Demo.child
      /\ SIGINT ∈ REDIRECTED_SIGNALS
      /\ handlers (final (Demo.script [] 0) "1.0" []) !! SIGINT
         = Some (SignalHandler Demo.child)).
Proof.
  split.
  - split; [reflexivity|].
    exact (proj1 (proj2 (handlers_installed (Demo.interactive 0) "1.0" []))
             eq_refl).
  - assert (Popen Demo.script_args ∈ trace (final (Demo.script [] 0) "1.0" []))
      as Hin by (vm_compute; elem_solve).
    assert (SIGINT ∈ REDIRECTED_SIGNALS) as Hsig by (vm_compute; elem_solve).
    split_and!; [reflexivity | exact Hin | reflexivity | exact Hsig |].
    exact (proj2 (proj2 (proj2 (handlers_installed (Demo.script [] 0) "1.0" [])))
             Demo.script_args Demo.child eq_refl Hin eq_refl SIGINT Hsig).
Defined.

Lemma cache_miss_builds_and_stores_witness :
  (GetVenv "/home/user/.fades/venvs.idx" ["requests>=2.0"]
     ∈ trace (final (Demo.script [] 0) "1.0" [])
   /\ get_venv (Demo.script [] 0) "/home/user/.fades/venvs.idx" ["requests>=2.0"]
      = Ok None
   /\ CreateVenv ["requests>=2.0"] ∈ trace (final (Demo.script [] 0) "1.0" []))
  /\ (GetVenv "/home/user/.fades/venvs.idx" ["requests"]
        ∈ trace (final (Demo.interactive 0) "1.0" [])
      /\ get_venv (Demo.interactive 0) "/home/user/.fades/venvs.idx" ["requests"]
         = Ok (Some Demo.venv)
      /\ forall ev, ev ∈ trace (final (Demo.interactive 0) "1.0" []) ->
                    is_build ev = false /\ is_store ev = false).
Proof.
  assert (GetVenv "/home/user/.fades/venvs.idx" ["requests>=2.0"]
            ∈ trace (final (Demo.script [] 0) "1.0" [])) as Hmiss
    by (vm_compute; elem_solve).
  assert (GetVenv "/home/user/.fades/venvs.idx" ["requests"]
            ∈ trace (final (Demo.interactive 0) "1.0" [])) as Hhit
    by (vm_compute; elem_solve).
  split; (split_and!; [done | reflexivity |]).
  - apply (proj1 (cache_miss_builds_and_stores (Demo.script [] 0) "1.0" [])).
    exists "/home/user/.fades/venvs.idx". split; [exact Hmiss | reflexivity].
  - exact (proj2 (proj2 (cache_miss_builds_and_stores
                           (Demo.interactive 0) "1.0" []))
             _ _ Demo.venv Hhit eq_refl).
Defined.

(** * Further properties *)

(** ** Words and options *)

Lemma has_whitespace_app s1 s2 :
  has_whitespace (s1 +:+ s2) = has_whitespace s1 || has_whitespace s2.
Proof.
  induction s1 as [|c s1 IH]; [done|].
  change (Str.isspace c || has_whitespace (s1 +:+ s2)
          = Str.isspace c || has_whitespace s1 || has_whitespace s2).
  by rewrite IH, orb_assoc.
Qed.

Lemma append_empty_r s : s +:+ EmptyString = s.
Proof. induction s as [|c s IH]; [done|]. exact (f_equal (String c) IH). Qed.

Lemma append_snoc word c s :
  (word +:+ String c EmptyString) +:+ s = word +:+ String c s.
Proof. induction word as [|d word IH]; [done|]. exact (f_equal (String d) IH). Qed.

(** The words [split_from] produces, given a clean run being read. *)
Lemma split_from_words word s :
  has_whitespace word = false ->
  Forall (fun w => w <> EmptyString /\ has_whitespace w = false)
         (Str.split_from word s).
Proof.
  revert word. induction s as [|c s IH]; intros word Hword; simpl.
  - destruct word; [constructor|]. by repeat constructor.
  - destruct (Str.isspace c) eqn:Hc.
    + destruct word; [by apply IH|]. constructor; [done|]. by apply IH.
    + apply IH. rewrite has_whitespace_app. simpl. by rewrite Hword, Hc.
Qed.

Lemma split_words s :
  Forall (fun w => w <> EmptyString /\ has_whitespace w = false) (Str.split s).
Proof. by apply split_from_words. Qed.

(** A run that meets no whitespace comes out whole. *)
Lemma split_from_clean word s :
  has_whitespace s = false -> word +:+ s <> EmptyString ->
  Str.split_from word s = [word +:+ s].
Proof.
  revert word. induction s as [|c s IH]; intros word Hs Hne; simpl in *.
  - rewrite append_empty_r in *. by destruct word.
  - apply orb_false_iff in Hs as [Hc Hs]. rewrite Hc.
    rewrite IH; [by rewrite append_snoc | done | by rewrite append_snoc].
Qed.

Lemma split_clean s :
  s <> EmptyString -> has_whitespace s = false -> Str.split s = [s].
Proof. intros Hne Hs. by apply (split_from_clean EmptyString). Qed.

Lemma leading_options_app dashes rest :
  Forall (fun o => Str.startswith "-" o = true) dashes ->
  leading_options (dashes ++ rest) = dashes ++ leading_options rest
  /\ after_options (dashes ++ rest) = after_options rest.
Proof.
  induction 1 as [|o dashes Ho _ [IH1 IH2]]; simpl; [done|].
  rewrite Ho. by rewrite IH1, IH2.
Qed.

(** A well-formed command line is split where it should be: the options
    run is split into words, the child program and what follows it are
    returned as they are. *)
Lemma _parse_argv_well_formed exe dashes child_program child_options :
  Forall (fun o => Str.startswith "-" o = true) dashes ->
  Str.startswith "-" child_program = false ->
  child_program <> EmptyString ->
  _parse_argv (exe :: dashes ++ child_program :: child_options)
  = Ok (concat (Str.split <$> dashes), child_program, child_options).
Proof.
  intros Hd Hcp Hne. rewrite _parse_argv_run. unfold parse_argv_spec. simpl.
  rewrite drop_0.
  destruct (leading_options_app dashes (child_program :: child_options) Hd)
    as [-> ->].
  simpl. rewrite Hcp. rewrite app_nil_r. by destruct child_program.
Qed.

(** X1.  Options written one per argument and without whitespace come
    back as they were given, and so do the child program and everything
    after it, also arguments that begin with ['-'] or hold whitespace. *)
Theorem _parse_argv_plain_options exe dashes child_program child_options :
  Forall (fun o => Str.startswith "-" o = true /\ has_whitespace o = false)
         dashes ->
  Str.startswith "-" child_program = false ->
  child_program <> EmptyString ->
  _parse_argv (exe :: dashes ++ child_program :: child_options)
  = Ok (dashes, child_program, child_options).
Proof.
  intros Hd Hcp Hne.
  rewrite _parse_argv_well_formed; [|by eapply Forall_impl; [exact Hd|intros ? []]|done..].
  do 3 f_equal. clear -Hd.
  induction Hd as [|o dashes [Ho Hw] _ IH]; [done|].
  rewrite fmap_cons, concat_cons, IH, split_clean; [done| |done]. by destruct o.
Qed.

(** X2.  Every fades option that [_parse_argv] returns is a word: it is
    not empty and holds no whitespace. *)
Theorem _parse_argv_options_are_words argv fades_options child_program child_options :
  _parse_argv argv = Ok (fades_options, child_program, child_options) ->
  Forall (fun o => o <> EmptyString /\ has_whitespace o = false) fades_options.
Proof.
  intros Hrun. apply _parse_argv_refines_spec in Hrun.
  unfold parse_argv_spec in Hrun.
  assert (fades_options = concat (Str.split <$> leading_options (drop 1 argv)))
    as -> by (destruct (after_options (drop 1 argv)); congruence).
  apply Forall_concat, Forall_fmap, Forall_true. intros o. apply split_words.
Qed.

(** ** The command line that [go] rejects *)

Section Validation.

Context {Deps Installed : Type}.
Implicit Types (W : @world Deps Installed).

(** X3.  A command line that asks for the version or for help, or that
    names no child program, ends [go] with [sys.exit()] after printing, and
    nothing else is done (no logger, no cache, no child, no handler).  The
    version wins over help, and both win over the missing child program,
    whose message is the same with and without [--interactive]. *)
Theorem rejected_command_line W v a fades_options child_program child_options :
  _parse_argv (sys_argv W) = Ok (fades_options, child_program, child_options) ->
  let wants_version := in_ "-V" fades_options || in_ "--version" fades_options in
  let wants_help := in_ "-h" fades_options || in_ "--help" fades_options in
  wants_version || wants_help || Str.is_empty child_program = true ->
  go W v a initial
  = (Raise SystemExit,
     {| handlers := ∅;
        trace := Print <$>
          (if wants_version then
             ["Running 'fades' version " +:+ v;
              "    Python: " +:+ sys_version_info W;
              "    System: " +:+ sys_platform W]
           else if wants_help then [USAGE]
           else [usage_error; USAGE]) |}).
Proof.
  intros Hparse wants_version wants_help Hrej. subst wants_version wants_help.
  unfold go, print, sys_exit, raise. rewrite bind_run. unfold lift at 1.
  rewrite Hparse. cbn beta iota.
  destruct (in_ "-V" fades_options || in_ "--version" fades_options).
  { by rewrite !bind_run. }
  rewrite bind_run, ret_run.
  destruct (in_ "-h" fades_options || in_ "--help" fades_options).
  { by rewrite !bind_run. }
  rewrite bind_run, ret_run. simpl in Hrej. rewrite Hrej.
  rewrite !bind_run.
  by destruct (in_ "-i" fades_options || in_ "--interactive" fades_options).
Qed.

(** X4.  An empty first argument makes [go] end with the IndexError of
    [_parse_argv] before it has printed or done anything. *)
Theorem go_propagates_parse_failure W v a exe rest :
  sys_argv W = exe :: EmptyString :: rest ->
  go W v a initial = (Raise IndexError, initial).
Proof.
  intros Hargv. unfold go. rewrite bind_run. unfold lift at 1.
  rewrite Hargv. by rewrite _parse_argv_run.
Qed.

Lemma after_options_all_dashed args :
  Forall (fun o => Str.startswith "-" o = true) args -> after_options args = [].
Proof. induction 1 as [|o args Ho _ IH]; simpl; [done|]. by rewrite Ho. Qed.

(** X5.  A command line made of options only is never run: whatever the
    options are, [go] prints and ends with [sys.exit()]. *)
Theorem options_only_command_line W v a :
  Forall (fun o => Str.startswith "-" o = true) (drop 1 (sys_argv W)) ->
  outcome W v a = Raise SystemExit
  /\ handlers (final W v a) = ∅
  /\ Forall is_print (trace (final W v a)).
Proof.
  intros Hall.
  assert (exists fo, _parse_argv (sys_argv W) = Ok (fo, EmptyString, []))
    as [fo Hparse].
  { rewrite _parse_argv_run. unfold parse_argv_spec.
    rewrite (after_options_all_dashed _ Hall). by eexists. }
  unfold outcome, final.
  rewrite (rejected_command_line W v a _ _ _ Hparse)
    by (simpl; by rewrite orb_true_r).
  split_and!; [done..|]. simpl.
  apply Forall_fmap, Forall_true. done.
Qed.

End Validation.

(** ** Signals sent on, and launches counted *)

Section MoreRuns.

Context {Deps Installed : Type}.
Implicit Types (W : @world Deps Installed) (st : @state Deps Installed).

Lemma deliver_all_sent sigs st :
  exists r evs,
    deliver_all sigs st = (r, extend st evs)
    /\ Forall relay_event evs /\ sent_by st sigs evs.
Proof.
  revert st. induction sigs as [|s sigs IH]; intros st; simpl.
  - exists (Ok tt), []. rewrite extend_nil. split_and!; [done..|].
    intros q s' Hin. by apply elem_of_nil in Hin.
  - rewrite bind_run, deliver_run.
    destruct (handlers st !! s) as [[p]|] eqn:Hs.
    + destruct (IH (extend st (relayed p [s]))) as (r & evs & -> & Hevs & Hsent).
      exists r, (relayed p [s] ++ evs). rewrite extend_extend.
      split_and!; [done| |].
      * apply Forall_app. split; [|done]. apply relayed_relay_event.
      * intros q s' Hin. apply elem_of_app in Hin as [Hin|Hin].
        -- unfold relayed in Hin; simpl in Hin.
           apply elem_of_cons in Hin as [Hin|Hin]; [done|].
           apply elem_of_cons in Hin as [Hin|Hin];
             [|by apply elem_of_nil in Hin].
           injection Hin as -> ->. split; [by left|]. by exists p.
        -- destruct (Hsent q s' Hin) as [Hs' Hp]. split; [by right|done].
    + exists (match s with SIGINT => Raise KeyboardInterrupt | _ => Killed s end), [].
      rewrite extend_nil. split_and!; [by destruct s|done|].
      intros q s' Hin. by apply elem_of_nil in Hin.
Qed.

Lemma wait_run_sent W p st :
  exists evs, Forall relay_event evs /\ sent_by st (incoming W) evs /\
    (wait W p st = (Ok (returncode W), extend st (evs ++ [Wait (pid p)]))
     \/ exists r, wait W p st = (r, extend st evs) /\ forall rc, r <> Ok rc).
Proof.
  unfold wait. rewrite bind_run.
  destruct (deliver_all_sent (incoming W) st) as (r & evs & -> & Hevs & Hsent).
  exists evs. split_and!; [done..|].
  destruct r as [[]| |]; [left|right..].
  - unfold emit, extend; simpl. by rewrite app_assoc.
  - by eexists.
  - by eexists.
Qed.

Lemma launches_app (tr1 tr2 : list (@event Deps Installed)) :
  launches (tr1 ++ tr2) = (launches tr1 + launches tr2)%nat.
Proof.
  induction tr1 as [|ev tr1 IH]; simpl; [done|].
  destruct ev; simpl; by rewrite ?IH.
Qed.

Lemma launches_relay (evs : list (@event Deps Installed)) :
  Forall relay_event evs -> launches evs = 0%nat.
Proof.
  induction 1 as [|ev evs Hev _ IH]; simpl; [done|]. by destruct ev.
Qed.

End MoreRuns.

(** At the wait, keeping track of where the signals sent on come from. *)
Ltac exec_wait_sent H :=
  lazymatch type of H with
  | context [wait ?W ?p ?st] =>
      let evs := fresh "evs" in
      let Hevs := fresh "Hevs" in
      let Hsent := fresh "Hsent" in
      let Hw := fresh "Hw" in
      let rw := fresh "rw" in
      let Hrw := fresh "Hrw" in
      destruct (wait_run_sent W p st)
        as (evs & Hevs & Hsent & [Hw | (rw & Hw & Hrw)]);
      rewrite Hw in H; clear Hw;
      [| destruct rw; [by exfalso; eapply Hrw|..]];
      unfold extend in H
  | _ => idtac
  end.

(** As [exec_step], keeping the level handed to the logger. *)
Ltac exec_step_level H :=
  first
  [ rewrite bind_run in H
  | rewrite ret_run in H
  | progress cbn in H
  | progress unfold emit in H
  | match type of H with
    | context [match ?x with _ => _ end] =>
        lazymatch x with
        | context [match _ with _ => _ end] => fail
        | context [mbind] => fail
        | _ =>
            lazymatch type of x with
            | prod (result _) _ => fail
            | _ => destruct x eqn:?
            end
        end
    end ].

Ltac go_run_level W v a :=
  unfold outcome, final;
  let r := fresh "r" in
  let st' := fresh "st'" in
  let Hgo := fresh "Hgo" in
  destruct (go W v a initial) as [r st'] eqn:Hgo; simpl;
  unfold go, call, print, debug, warning, sys_exit, raise, getitem in Hgo;
  repeat exec_step_level Hgo; exec_wait Hgo; repeat exec_step_level Hgo;
  injection Hgo as <- <-; simpl.

(** ** More of [go] *)

Section MoreGo.

Context {Deps Installed : Type}.
Implicit Types (W : @world Deps Installed).

Lemma go_returns_after_wait W v a :
  outcome W v a = Ok tt -> exists p, Wait p ∈ trace (final W v a).
Proof.
  go_run W v a; intros Hout; try discriminate Hout.
  all: eexists; rewrite <- ?app_assoc; simpl.
  all: solve [ repeat first [ apply list_elem_of_here
                            | apply list_elem_of_further
                            | apply elem_of_app; right ] ].
Qed.

(** X6.  [go] returns normally exactly when it has waited for a child to
    exit: every other way out of [go] is an exception (or a signal). *)
Theorem go_returns_iff_child_waited W v a :
  outcome W v a = Ok tt <-> exists p, Wait p ∈ trace (final W v a).
Proof.
  split; [apply go_returns_after_wait|].
  intros [p Hin]. by destruct (go_after_child_exit W v a p Hin).
Qed.

(** X7.  The first call into another module (or process creation) that
    raises ends the run: the exception leaves [go] as it is, that call is
    the last thing [go] has done, and no signal handler is registered.  So
    a failed build is never stored, and nothing is launched after a failed
    lookup, build or store. *)
Theorem first_failure_is_final W v a ev e :
  ev ∈ trace (final W v a) ->
  raises W ev e ->
  outcome W v a = Raise e
  /\ last (trace (final W v a)) = Some ev
  /\ handlers (final W v a) = ∅.
Proof.
  go_run W v a; intros Hin Hraise; elem_inv Hin; try (subst ev; simpl in Hraise).
  all: try done.
  all: try congruence.
  all: try (split_and!; [congruence | done | done]).
  all: match goal with
       | Hevs : Forall relay_event ?evs, Hev : _ ∈ ?evs |- _ =>
           apply (relay_event_elem_of _ _ Hevs) in Hev;
           by destruct ev as [| |[]| | | | | | | | |]
       end.
Qed.

(** X8.  What the cache is asked: the requirements are what the parser of
    the mode answered for the child program (the requirement string in
    interactive mode, the script otherwise), and the index is
    [venvs.idx] under the base directory. *)
Theorem lookup_request W v a index deps :
  GetVenv index deps ∈ trace (final W v a) ->
  exists fades_options child_program child_options basedir,
    _parse_argv (sys_argv W) = Ok (fades_options, child_program, child_options)
    /\ (if interactive_mode W
        then ParseString child_program else ParseFile child_program)
       ∈ trace (final W v a)
    /\ (if interactive_mode W
        then parse_string W child_program else parse_file W child_program)
       = Ok deps
    /\ get_basedir W = Ok basedir
    /\ index = os_path_join basedir "venvs.idx".
Proof.
  unfold interactive_mode.
  go_run W v a; intros Hin; elem_inv Hin; injection Hin as -> ->.
  all: eexists _, _, _, _;
    (split_and!;
     [ reflexivity | simpl; elem_solve | simpl; eassumption
     | reflexivity | reflexivity ]).
Qed.

(** X9.  The mode chooses the parser: [parsing.parse_string] is called in
    interactive mode only, [parsing.parse_file] in script mode only. *)
Theorem parser_follows_mode W v a s :
  (ParseString s ∈ trace (final W v a) -> interactive_mode W = true)
  /\ (ParseFile s ∈ trace (final W v a) -> interactive_mode W = false).
Proof.
  unfold interactive_mode.
  go_run W v a; (split; intros Hin; elem_inv Hin; done).
Qed.

(** X10.  An environment description without the key ['env_bin_path'] ends
    [go] with KeyError and no child is launched.  When the description
    came from the cache the lookup is the last thing done; when it was
    just built, it has been stored before the key is looked at. *)
Theorem missing_bin_path W v a index deps venv_data :
  GetVenv index deps ∈ trace (final W v a) ->
  venv_data !! "env_bin_path" = None ->
  (get_venv W index deps = Ok (Some venv_data) ->
   outcome W v a = Raise (KeyError "env_bin_path")
   /\ last (trace (final W v a)) = Some (GetVenv index deps))
  /\ (forall installed,
        get_venv W index deps = Ok None ->
        create_venv W deps = Ok (venv_data, installed) ->
        store W index installed venv_data = Ok tt ->
        outcome W v a = Raise (KeyError "env_bin_path")
        /\ last (trace (final W v a)) = Some (Store index installed venv_data)).
Proof.
  go_run W v a; intros Hin Hkey; elem_inv Hin; injection Hin as -> ->.
  all: (split; [intros Hhit | intros installed Hmiss Hbuilt Hstored]);
    try congruence.
  all: same_answer; try congruence.
  all: done.
Qed.

(** X11.  Whatever [go] sends with [os.kill] is a redirected signal that
    reached the supervisor, sent to the child that [go] launched; in
    interactive mode nothing is ever sent. *)
Theorem only_the_child_is_signalled W v a q s :
  Kill q s ∈ trace (final W v a) ->
  interactive_mode W = false
  /\ s ∈ REDIRECTED_SIGNALS
  /\ s ∈ incoming W
  /\ exists args p,
       Popen args ∈ trace (final W v a) /\ popen W args = Ok p /\ q = pid p.
Proof.
  unfold interactive_mode.
  go_run_with exec_wait_sent W v a; intros Hin; elem_inv Hin.
  all: match goal with
       | Hsent : sent_by _ _ ?evs, Hin : _ ∈ ?evs |- _ =>
           destruct (Hsent _ _ Hin) as (Harrived & proc & Hlookup & ->);
           simpl in Hlookup
       end.
  all: try (by rewrite lookup_empty in Hlookup).
  all: rewrite forwarding_lookup in Hlookup; case_bool_decide; [|done].
  all: injection Hlookup as <-.
  all: split_and!; [done..|].
  all: eexists _, _; (split_and!; [elem_solve | eassumption | reflexivity]).
Qed.

(** X12.  The process [go] waits for is the child it launched. *)
Theorem only_the_child_is_waited_for W v a q :
  Wait q ∈ trace (final W v a) ->
  exists args p,
    Popen args ∈ trace (final W v a) /\ popen W args = Ok p /\ q = pid p.
Proof.
  go_run W v a; intros Hin; elem_inv Hin; injection Hin as ->.
  all: eexists _, _; (split_and!; [elem_solve | eassumption | reflexivity]).
Qed.

(** X13.  The logger is set up at DEBUG with [-v], else at WARNING with
    [-q], else at INFO; so [-v] wins over [-q], and the warning about it is
    logged exactly when both were given. *)
Theorem logging_setup W v a lvl :
  SetUp lvl ∈ trace (final W v a) ->
  lvl = (if verbose_mode W then DEBUG
         else if quiet_mode W then WARNING else INFO)
  /\ (Log WARNING "Overriding 'quiet' option ('verbose' also requested)" []
        ∈ trace (final W v a)
      <-> verbose_mode W && quiet_mode W = true).
Proof.
  unfold verbose_mode, quiet_mode.
  go_run_level W v a; intros Hin; elem_inv Hin; injection Hin as ->.
  all: (split; [done|]); simpl in *.
  all: (split;
        [ intros Hw; elem_inv Hw; congruence
        | intros Hvq; first [elem_solve | congruence] ]).
Qed.

(** X14.  [go] prints only when it rejects the command line: a run in
    which anything was printed ended with [sys.exit()] and did nothing but
    print. *)
Theorem prints_only_when_rejecting W v a line :
  Print line ∈ trace (final W v a) ->
  outcome W v a = Raise SystemExit
  /\ handlers (final W v a) = ∅
  /\ Forall is_print (trace (final W v a)).
Proof.
  go_run W v a; intros Hin; elem_inv Hin.
  all: split_and!; [done..|]; by repeat constructor.
Qed.

(** X15.  [go] launches at most one child. *)
Theorem at_most_one_launch W v a :
  (launches (trace (final W v a)) <= 1)%nat.
Proof.
  go_run W v a.
  all: rewrite ?launches_app; simpl.
  all: try match goal with
           | Hevs : Forall relay_event ?evs |- _ =>
               rewrite (launches_relay evs Hevs)
           end.
  all: simpl; lia.
Qed.

End MoreGo.

(** ** The further properties on sample invocations *)

Lemma _parse_argv_plain_options_witness :
  _parse_argv (["fades"] ++ ["-v"; "--quiet"] ++ "script.py" :: ["-V"; "a b"])
  = Ok (["-v"; "--quiet"], "script.py", ["-V"; "a b"]).
Proof.
  apply (_parse_argv_plain_options "fades" ["-v"; "--quiet"] "script.py"
           ["-V"; "a b"]).
  - by repeat constructor.
  - reflexivity.
  - discriminate.
Defined.

Lemma _parse_argv_options_are_words_witness :
  _parse_argv ["fades"; "-v  -d foo"; "script.py"]
  = Ok (["-v"; "-d"; "foo"], "script.py", [])
  /\ Forall (fun o => o <> EmptyString /\ has_whitespace o = false)
            ["-v"; "-d"; "foo"].
Proof.
  split; [reflexivity|].
  exact (_parse_argv_options_are_words
           ["fades"; "-v  -d foo"; "script.py"] _ _ _ eq_refl).
Defined.

Lemma rejected_command_line_witness :
  go (Samples.run_of ["fades"; "-h"; "-V"; "script.py"]) "1.0" [] initial
  = (Raise SystemExit,
     {| handlers := ∅;
        trace := [Print "Running 'fades' version 1.0";
                  Print "    Python: sys.version_info(major=3, minor=4)";
                  Print "    System: linux"] |}).
Proof.
  exact (rejected_command_line
           (Samples.run_of ["fades"; "-h"; "-V"; "script.py"]) "1.0" []
           ["-h"; "-V"] "script.py" [] eq_refl eq_refl).
Defined.

Lemma go_propagates_parse_failure_witness :
  go (Samples.run_of ["fades"; EmptyString; "script.py"]) "1.0" [] initial
  = (Raise IndexError, initial).
Proof.
  exact (go_propagates_parse_failure
           (Samples.run_of ["fades"; EmptyString; "script.py"]) "1.0" []
           "fades" ["script.py"] eq_refl).
Defined.

Lemma options_only_command_line_witness :
  Forall (fun o => Str.startswith "-" o = true)
         (drop 1 (sys_argv (Samples.run_of ["fades"; "-v"; "-q"])))
  /\ outcome (Samples.run_of ["fades"; "-v"; "-q"]) "1.0" [] = Raise SystemExit.
Proof.
  assert (Forall (fun o => Str.startswith "-" o = true)
                 (drop 1 (sys_argv (Samples.run_of ["fades"; "-v"; "-q"]))))
    as Hall by (simpl; by repeat constructor).
  split; [exact Hall|].
  exact (proj1 (options_only_command_line _ "1.0" [] Hall)).
Defined.

Lemma first_failure_is_final_witness :
  CreateVenv ["nosuchpackage"] ∈ trace (final Samples.build_fails "1.0" [])
  /\ raises Samples.build_fails (CreateVenv ["nosuchpackage"])
            (External "CalledProcessError")
  /\ outcome Samples.build_fails "1.0" [] = Raise (External "CalledProcessError")
  /\ last (trace (final Samples.build_fails "1.0" []))
     = Some (CreateVenv ["nosuchpackage"]).
Proof.
  assert (CreateVenv ["nosuchpackage"]
            ∈ trace (final Samples.build_fails "1.0" [])) as Hin
    by (vm_compute; elem_solve).
  assert (raises Samples.build_fails (CreateVenv ["nosuchpackage"])
                 (External "CalledProcessError")) as Hraise by reflexivity.
  split_and!; [exact Hin | exact Hraise | |].
  - exact (proj1 (first_failure_is_final _ "1.0" [] _ _ Hin Hraise)).
  - exact (proj1 (proj2 (first_failure_is_final _ "1.0" [] _ _ Hin Hraise))).
Defined.

Lemma lookup_request_witness :
  GetVenv "/home/user/.fades/venvs.idx" ["requests"]
    ∈ trace (final (Demo.interactive 0) "1.0" [])
  /\ exists child_program basedir,
       parse_string (Demo.interactive 0) child_program = Ok ["requests"]
       /\ "/home/user/.fades/venvs.idx" = os_path_join basedir "venvs.idx".
Proof.
  assert (GetVenv "/home/user/.fades/venvs.idx" ["requests"]
            ∈ trace (final (Demo.interactive 0) "1.0" [])) as Hin
    by (vm_compute; elem_solve).
  split; [exact Hin|].
  destruct (lookup_request _ "1.0" [] _ _ Hin)
    as (fo & cp & co & basedir & _ & _ & Hdeps & _ & Hindex).
  exists cp, basedir. split; [exact Hdeps | exact Hindex].
Defined.

Lemma parser_follows_mode_witness :
  ParseFile "script.py" ∈ trace (final (Demo.script [] 0) "1.0" [])
  /\ interactive_mode (Demo.script [] 0) = false.
Proof.
  assert (ParseFile "script.py" ∈ trace (final (Demo.script [] 0) "1.0" []))
    as Hin by (vm_compute; elem_solve).
  split; [exact Hin|].
  exact (proj2 (parser_follows_mode (Demo.script [] 0) "1.0" [] "script.py") Hin).
Defined.

Lemma missing_bin_path_witness :
  GetVenv "/home/user/.fades/venvs.idx" ["requests>=2.0"]
    ∈ trace (final Samples.no_bin_path "1.0" [])
  /\ Samples.venv_without_bin !! "env_bin_path" = None
  /\ get_venv Samples.no_bin_path "/home/user/.fades/venvs.idx" ["requests>=2.0"]
     = Ok (Some Samples.venv_without_bin)
  /\ outcome Samples.no_bin_path "1.0" [] = Raise (KeyError "env_bin_path").
Proof.
  assert (GetVenv "/home/user/.fades/venvs.idx" ["requests>=2.0"]
            ∈ trace (final Samples.no_bin_path "1.0" [])) as Hin
    by (vm_compute; elem_solve).
  assert (Samples.venv_without_bin !! "env_bin_path" = None) as Hkey
    by reflexivity.
  split_and!; [exact Hin | exact Hkey | reflexivity |].
  exact (proj1 (proj1 (missing_bin_path Samples.no_bin_path "1.0" [] _ _ _
                         Hin Hkey) eq_refl)).
Defined.

Lemma only_the_child_is_signalled_witness :
  Kill 4242 SIGTERM ∈ trace (final (Demo.script [SIGINT; SIGTERM] 0) "1.0" [])
  /\ SIGTERM ∈ REDIRECTED_SIGNALS
  /\ SIGTERM ∈ incoming (Demo.script [SIGINT; SIGTERM] 0).
Proof.
  assert (Kill 4242 SIGTERM
            ∈ trace (final (Demo.script [SIGINT; SIGTERM] 0) "1.0" [])) as Hin
    by (vm_compute; elem_solve).
  split; [exact Hin|].
  destruct (only_the_child_is_signalled _ "1.0" [] _ _ Hin)
    as (_ & Hred & Harr & _).
  split; [exact Hred | exact Harr].
Defined.

Lemma only_the_child_is_waited_for_witness :
  Wait 4242 ∈ trace (final (Demo.interactive 3) "1.0" [])
  /\ exists args p,
       popen (Demo.interactive 3) args = Ok p /\ 4242 = pid p.
Proof.
  assert (Wait 4242 ∈ trace (final (Demo.interactive 3) "1.0" [])) as Hin
    by (vm_compute; elem_solve).
  split; [exact Hin|].
  destruct (only_the_child_is_waited_for _ "1.0" [] _ Hin)
    as (args & p & _ & Hp & Hq).
  exists args, p. split; [exact Hp | exact Hq].
Defined.

Lemma logging_setup_witness :
  SetUp DEBUG
    ∈ trace (final (Samples.run_of ["fades"; "-q"; "-v"; "script.py"]) "1.0" [])
  /\ DEBUG = (if verbose_mode (Samples.run_of ["fades"; "-q"; "-v"; "script.py"])
              then DEBUG
              else if quiet_mode (Samples.run_of ["fades"; "-q"; "-v"; "script.py"])
                   then WARNING else INFO).
Proof.
  assert (SetUp DEBUG
            ∈ trace (final (Samples.run_of ["fades"; "-q"; "-v"; "script.py"])
                           "1.0" [])) as Hin
    by (vm_compute; elem_solve).
  split; [exact Hin|].
  exact (proj1 (logging_setup _ "1.0" [] DEBUG Hin)).
Defined.

Lemma prints_only_when_rejecting_witness :
  Print USAGE ∈ trace (final (Samples.run_of ["fades"; "--help"]) "1.0" [])
  /\ outcome (Samples.run_of ["fades"; "--help"]) "1.0" [] = Raise SystemExit.
Proof.
  assert (Print USAGE
            ∈ trace (final (Samples.run_of ["fades"; "--help"]) "1.0" [])) as Hin
    by (vm_compute; elem_solve).
  split; [exact Hin|].
  exact (proj1 (prints_only_when_rejecting _ "1.0" [] _ Hin)).
Defined.
